(** * Scrapling REST gateway ([scrapling/api.py]): a shallow embedding

    The gateway is glue between an HTTP surface and an external scraping
    engine.  The embedding follows the source function by function:
    the API-key dependency, the four pydantic request models with their
    defaults, the option mappers, the response normalizer, the six fetch
    handlers and the health handler, and the application that routes a
    request through the auth dependency to its handler.

    Conventions.
    - A Python [str] is a Rocq [string]; a character is its code point,
      so the model covers code points below 256 (what a latin-1 decoded
      HTTP header can carry).
    - A Python [int] is a [Z]; a [Dict[str, str]] is a [gmap string string].
    - [Optional[T]] is [option T], [None] being Python's [None].
    - Code that may raise returns a [result]; [try]/[except] is a [match].
    - The engine and [bytes.decode] are parameters.  The engine's
      response is kept by the shapes [_response_to_dict] tells apart and
      by the outcome of the calls it guards with [try]; reading an
      attribute, [str()] of the url, of a header key or value and of the
      response itself do not raise, cookie names and values are strings
      (as the engine declares them), and rendering the returned dict as
      JSON does not fail.
    - What the gateway does to the outside (engine invocations, selector
      evaluations) is recorded, in order, in a trace. *)

From Stdlib Require Import ZArith String Ascii List.
From stdpp Require Import base option gmap strings list fin_maps.

Set Warnings "-register-all,-clear-no-such-hyp".
Local Open Scope string_scope.
Local Open Scope Z_scope.

(** ** Python values and exceptions *)

(** Outcome of an operation that may raise. *)
Inductive result (E A : Type) : Type :=
  | Ok (a : A)
  | Raise (e : E).
Arguments Ok {E A} a.
Arguments Raise {E A} e.

(** An exception instance of class [Exception]: its class name and [str(e)]. *)
Record Exception : Type := mkException { exn_class : string; exn_str : string }.

(** What the gateway's own code raises: an [HTTPException] (turned by the
    framework into a response with that status), or any other exception
    left unhandled. *)
Inductive Raised : Type :=
  | HTTPException (status_code : Z) (detail : string)
  | Unhandled (e : Exception).

(** A decoded JSON document ([Any] in the request model). [JNull] is [None]. *)
Inductive Json : Type :=
  | JNull
  | JBool (b : bool)
  | JNum (n : Z)
  | JStr (s : string)
  | JArr (items : list Json)
  | JObj (members : list (string * Json)).

(** Values stored in an option map ([Dict[str, Any]]). *)
Inductive PyVal : Type :=
  | PyNone
  | PyBool (b : bool)
  | PyInt (n : Z)
  | PyStr (s : string)
  | PyDict (m : gmap string string)
  | PyJson (j : Json).

Class ToPy (A : Type) := to_py : A → PyVal.
#[global] Instance bool_to_py : ToPy bool := PyBool.
#[global] Instance int_to_py : ToPy Z := PyInt.
#[global] Instance str_to_py : ToPy string := PyStr.
#[global] Instance dict_to_py : ToPy (gmap string string) := PyDict.
#[global] Instance json_to_py : ToPy Json :=
  λ j, match j with JNull => PyNone | _ => PyJson j end.
#[global] Instance option_to_py {A} `{ToPy A} : ToPy (option A) :=
  λ o, match o with Some a => to_py a | None => PyNone end.

(** Truth value testing ([if x:]). *)
Definition truthy (v : PyVal) : bool :=
  match v with
  | PyNone => false
  | PyBool b => b
  | PyInt n => negb (n =? 0)
  | PyStr s => negb (String.eqb s "")
  | PyDict m => negb (bool_decide (m = ∅))
  | PyJson j =>
      match j with
      | JNull => false
      | JBool b => b
      | JNum n => negb (n =? 0)
      | JStr s => negb (String.eqb s "")
      | JArr items => match items with [] => false | _ => true end
      | JObj members => match members with [] => false | _ => true end
      end
  end.

(** [x is not None]. *)
Definition is_not_None (v : PyVal) : bool :=
  match v with PyNone => false | _ => true end.

(** ** API key authentication *)

Definition is_ascii_char (c : ascii) : bool := (N_of_ascii c <? 128)%N.

Fixpoint is_ascii (s : string) : bool :=
  match s with
  | EmptyString => true
  | String c s' => is_ascii_char c && is_ascii s'
  end.

(** [secrets.compare_digest] on two [str] arguments: both must be
    ASCII-only, otherwise [TypeError] is raised; on ASCII strings it is
    equality (in constant time, which the model does not observe). *)
Definition compare_digest (a b : string) : result Exception bool :=
  if is_ascii a && is_ascii b then Ok (String.eqb a b)
  else Raise (mkException "TypeError"
                "comparing strings with non-ASCII characters is not supported").

(** [_get_api_key] reads [SCRAPLING_API_KEY]; the environment is the
    argument. *)
Definition _get_api_key (environ : gmap string string) : option string :=
  environ !! "SCRAPLING_API_KEY".

Definition _verify_api_key (environ : gmap string string)
    (api_key : option string) : result Raised unit :=
  let expected := _get_api_key environ in
  match expected with
  | None => Ok tt
  | Some expected =>
      match api_key with
      | None =>
          Raise (HTTPException 401
                   "Missing API key. Provide it via the X-API-Key header.")
      | Some api_key =>
          match compare_digest api_key expected with
          | Raise e => Raise (Unhandled e)
          | Ok false => Raise (HTTPException 403 "Invalid API key.")
          | Ok true => Ok tt
          end
      end
  end.

(** ** Pydantic request models *)

(** What a JSON request body gives for an optional field: the key is
    missing, it is [null], or it carries a value. *)
Inductive Supplied (A : Type) : Type :=
  | Unset
  | Null
  | Value (a : A).
Arguments Unset {A}.
Arguments Null {A}.
Arguments Value {A} a.

(** Model construction for a field declared [Optional[A] = default]. *)
Definition field {A} (default : option A) (s : Supplied A) : option A :=
  match s with
  | Unset => default
  | Null => None
  | Value a => Some a
  end.

Module FetcherGetRequest.
Record t : Type := mk {
  url : string;
  headers : option (gmap string string);
  cookies : option (gmap string string);
  params : option (gmap string string);
  proxy : option string;
  timeout : option Z;
  follow_redirects : option bool;
  verify : option bool;
  impersonate : option string;
  stealthy_headers : option bool;
  css_selector : option string;
  xpath_selector : option string
}.

Module Input.
Record t : Type := mk {
  url : string;
  headers : Supplied (gmap string string);
  cookies : Supplied (gmap string string);
  params : Supplied (gmap string string);
  proxy : Supplied string;
  timeout : Supplied Z;
  follow_redirects : Supplied bool;
  verify : Supplied bool;
  impersonate : Supplied string;
  stealthy_headers : Supplied bool;
  css_selector : Supplied string;
  xpath_selector : Supplied string
}.

(** A body that carries the url and nothing else. *)
Definition only_url (u : string) : t :=
  mk u Unset Unset Unset Unset Unset Unset Unset Unset Unset Unset Unset.

(** The same body with one field replaced. *)
Definition with_headers (v : Supplied (gmap string string)) (b : t) : t :=
  mk (url b) v (cookies b) (params b) (proxy b) (timeout b) (follow_redirects b)
    (verify b) (impersonate b) (stealthy_headers b) (css_selector b)
    (xpath_selector b).
Definition with_cookies (v : Supplied (gmap string string)) (b : t) : t :=
  mk (url b) (headers b) v (params b) (proxy b) (timeout b) (follow_redirects b)
    (verify b) (impersonate b) (stealthy_headers b) (css_selector b)
    (xpath_selector b).
Definition with_params (v : Supplied (gmap string string)) (b : t) : t :=
  mk (url b) (headers b) (cookies b) v (proxy b) (timeout b) (follow_redirects b)
    (verify b) (impersonate b) (stealthy_headers b) (css_selector b)
    (xpath_selector b).
Definition with_proxy (v : Supplied string) (b : t) : t :=
  mk (url b) (headers b) (cookies b) (params b) v (timeout b) (follow_redirects b)
    (verify b) (impersonate b) (stealthy_headers b) (css_selector b)
    (xpath_selector b).
Definition with_impersonate (v : Supplied string) (b : t) : t :=
  mk (url b) (headers b) (cookies b) (params b) (proxy b) (timeout b)
    (follow_redirects b) (verify b) v (stealthy_headers b) (css_selector b)
    (xpath_selector b).
End Input.

Definition validate (b : Input.t) : t :=
  {| url := Input.url b;
     headers := field None (Input.headers b);
     cookies := field None (Input.cookies b);
     params := field None (Input.params b);
     proxy := field None (Input.proxy b);
     timeout := field (Some 30) (Input.timeout b);
     follow_redirects := field (Some true) (Input.follow_redirects b);
     verify := field (Some true) (Input.verify b);
     impersonate := field None (Input.impersonate b);
     stealthy_headers := field (Some true) (Input.stealthy_headers b);
     css_selector := field None (Input.css_selector b);
     xpath_selector := field None (Input.xpath_selector b) |}.
End FetcherGetRequest.

Module FetcherDataRequest.
(** [class FetcherDataRequest(FetcherGetRequest)]. *)
Record t : Type := mk {
  base : FetcherGetRequest.t;
  data : option (gmap string string);
  json_data : Json
}.

Module Input.
Record t : Type := mk {
  base : FetcherGetRequest.Input.t;
  data : Supplied (gmap string string);
  json_data : Supplied Json
}.
End Input.

Definition validate (b : Input.t) : t :=
  {| base := FetcherGetRequest.validate (Input.base b);
     data := field None (Input.data b);
     json_data := default JNull (field None (Input.json_data b)) |}.
End FetcherDataRequest.

Module DynamicFetchRequest.
Record t : Type := mk {
  url : string;
  headless : option bool;
  disable_resources : option bool;
  network_idle : option bool;
  load_dom : option bool;
  timeout : option Z;
  wait : option Z;
  wait_selector : option string;
  wait_selector_state : option string;
  locale : option string;
  real_chrome : option bool;
  cdp_url : option string;
  proxy : option string;
  extra_headers : option (gmap string string);
  useragent : option string;
  google_search : option bool;
  css_selector : option string;
  xpath_selector : option string
}.

Module Input.
Record t : Type := mk {
  url : string;
  headless : Supplied bool;
  disable_resources : Supplied bool;
  network_idle : Supplied bool;
  load_dom : Supplied bool;
  timeout : Supplied Z;
  wait : Supplied Z;
  wait_selector : Supplied string;
  wait_selector_state : Supplied string;
  locale : Supplied string;
  real_chrome : Supplied bool;
  cdp_url : Supplied string;
  proxy : Supplied string;
  extra_headers : Supplied (gmap string string);
  useragent : Supplied string;
  google_search : Supplied bool;
  css_selector : Supplied string;
  xpath_selector : Supplied string
}.

Definition only_url (u : string) : t :=
  mk u Unset Unset Unset Unset Unset Unset Unset Unset Unset Unset Unset
     Unset Unset Unset Unset Unset Unset.

(** The same body with one field replaced. *)
Definition with_wait_selector (v : Supplied string) (b : t) : t :=
  mk (url b) (headless b) (disable_resources b) (network_idle b) (load_dom b)
    (timeout b) (wait b) v (wait_selector_state b) (locale b) (real_chrome b)
    (cdp_url b) (proxy b) (extra_headers b) (useragent b) (google_search b)
    (css_selector b) (xpath_selector b).
Definition with_wait_selector_state (v : Supplied string) (b : t) : t :=
  mk (url b) (headless b) (disable_resources b) (network_idle b) (load_dom b)
    (timeout b) (wait b) (wait_selector b) v (locale b) (real_chrome b)
    (cdp_url b) (proxy b) (extra_headers b) (useragent b) (google_search b)
    (css_selector b) (xpath_selector b).
Definition with_locale (v : Supplied string) (b : t) : t :=
  mk (url b) (headless b) (disable_resources b) (network_idle b) (load_dom b)
    (timeout b) (wait b) (wait_selector b) (wait_selector_state b) v
    (real_chrome b) (cdp_url b) (proxy b) (extra_headers b) (useragent b)
    (google_search b) (css_selector b) (xpath_selector b).
Definition with_cdp_url (v : Supplied string) (b : t) : t :=
  mk (url b) (headless b) (disable_resources b) (network_idle b) (load_dom b)
    (timeout b) (wait b) (wait_selector b) (wait_selector_state b) (locale b)
    (real_chrome b) v (proxy b) (extra_headers b) (useragent b) (google_search b)
    (css_selector b) (xpath_selector b).
Definition with_proxy (v : Supplied string) (b : t) : t :=
  mk (url b) (headless b) (disable_resources b) (network_idle b) (load_dom b)
    (timeout b) (wait b) (wait_selector b) (wait_selector_state b) (locale b)
    (real_chrome b) (cdp_url b) v (extra_headers b) (useragent b)
    (google_search b) (css_selector b) (xpath_selector b).
Definition with_extra_headers (v : Supplied (gmap string string)) (b : t) : t :=
  mk (url b) (headless b) (disable_resources b) (network_idle b) (load_dom b)
    (timeout b) (wait b) (wait_selector b) (wait_selector_state b) (locale b)
    (real_chrome b) (cdp_url b) (proxy b) v (useragent b) (google_search b)
    (css_selector b) (xpath_selector b).
Definition with_useragent (v : Supplied string) (b : t) : t :=
  mk (url b) (headless b) (disable_resources b) (network_idle b) (load_dom b)
    (timeout b) (wait b) (wait_selector b) (wait_selector_state b) (locale b)
    (real_chrome b) (cdp_url b) (proxy b) (extra_headers b) v (google_search b)
    (css_selector b) (xpath_selector b).
End Input.

Definition validate (b : Input.t) : t :=
  {| url := Input.url b;
     headless := field (Some true) (Input.headless b);
     disable_resources := field (Some false) (Input.disable_resources b);
     network_idle := field (Some false) (Input.network_idle b);
     load_dom := field (Some true) (Input.load_dom b);
     timeout := field (Some 30000) (Input.timeout b);
     wait := field None (Input.wait b);
     wait_selector := field None (Input.wait_selector b);
     wait_selector_state := field (Some "attached") (Input.wait_selector_state b);
     locale := field None (Input.locale b);
     real_chrome := field (Some false) (Input.real_chrome b);
     cdp_url := field None (Input.cdp_url b);
     proxy := field None (Input.proxy b);
     extra_headers := field None (Input.extra_headers b);
     useragent := field None (Input.useragent b);
     google_search := field (Some true) (Input.google_search b);
     css_selector := field None (Input.css_selector b);
     xpath_selector := field None (Input.xpath_selector b) |}.
End DynamicFetchRequest.

Module StealthyFetchRequest.
(** [class StealthyFetchRequest(DynamicFetchRequest)]. *)
Record t : Type := mk {
  base : DynamicFetchRequest.t;
  allow_webgl : option bool;
  hide_canvas : option bool;
  block_webrtc : option bool;
  solve_cloudflare : option bool
}.

Module Input.
Record t : Type := mk {
  base : DynamicFetchRequest.Input.t;
  allow_webgl : Supplied bool;
  hide_canvas : Supplied bool;
  block_webrtc : Supplied bool;
  solve_cloudflare : Supplied bool
}.
End Input.

Definition validate (b : Input.t) : t :=
  {| base := DynamicFetchRequest.validate (Input.base b);
     allow_webgl := field (Some true) (Input.allow_webgl b);
     hide_canvas := field (Some false) (Input.hide_canvas b);
     block_webrtc := field (Some false) (Input.block_webrtc b);
     solve_cloudflare := field (Some false) (Input.solve_cloudflare b) |}.
End StealthyFetchRequest.

(** ** Option mappers *)

(** [if cond: kwargs[key] = value]. *)
Definition set_if (cond : bool) (key : string) (value : PyVal)
    (kwargs : gmap string PyVal) : gmap string PyVal :=
  if cond then <[key := value]> kwargs else kwargs.

Definition _build_fetcher_kwargs (req : FetcherGetRequest.t) : gmap string PyVal :=
  let kwargs : gmap string PyVal := ∅ in
  let v := to_py (FetcherGetRequest.headers req) in
  let kwargs := set_if (truthy v) "headers" v kwargs in
  let v := to_py (FetcherGetRequest.cookies req) in
  let kwargs := set_if (truthy v) "cookies" v kwargs in
  let v := to_py (FetcherGetRequest.params req) in
  let kwargs := set_if (truthy v) "params" v kwargs in
  let v := to_py (FetcherGetRequest.proxy req) in
  let kwargs := set_if (truthy v) "proxy" v kwargs in
  let v := to_py (FetcherGetRequest.timeout req) in
  let kwargs := set_if (is_not_None v) "timeout" v kwargs in
  let v := to_py (FetcherGetRequest.follow_redirects req) in
  let kwargs := set_if (is_not_None v) "follow_redirects" v kwargs in
  let v := to_py (FetcherGetRequest.verify req) in
  let kwargs := set_if (is_not_None v) "verify" v kwargs in
  let v := to_py (FetcherGetRequest.impersonate req) in
  let kwargs := set_if (truthy v) "impersonate" v kwargs in
  let v := to_py (FetcherGetRequest.stealthy_headers req) in
  let kwargs := set_if (is_not_None v) "stealthy_headers" v kwargs in
  kwargs.

Definition _build_dynamic_kwargs (req : DynamicFetchRequest.t) : gmap string PyVal :=
  let kwargs : gmap string PyVal :=
    <["google_search" := to_py (DynamicFetchRequest.google_search req)]>
    (<["real_chrome" := to_py (DynamicFetchRequest.real_chrome req)]>
    (<["timeout" := to_py (DynamicFetchRequest.timeout req)]>
    (<["load_dom" := to_py (DynamicFetchRequest.load_dom req)]>
    (<["network_idle" := to_py (DynamicFetchRequest.network_idle req)]>
    (<["disable_resources" := to_py (DynamicFetchRequest.disable_resources req)]>
    (<["headless" := to_py (DynamicFetchRequest.headless req)]> ∅)))))) in
  let v := to_py (DynamicFetchRequest.wait req) in
  let kwargs := set_if (is_not_None v) "wait" v kwargs in
  let v := to_py (DynamicFetchRequest.wait_selector req) in
  let kwargs := set_if (truthy v) "wait_selector" v kwargs in
  let v := to_py (DynamicFetchRequest.wait_selector_state req) in
  let kwargs := set_if (truthy v) "wait_selector_state" v kwargs in
  let v := to_py (DynamicFetchRequest.locale req) in
  let kwargs := set_if (truthy v) "locale" v kwargs in
  let v := to_py (DynamicFetchRequest.cdp_url req) in
  let kwargs := set_if (truthy v) "cdp_url" v kwargs in
  let v := to_py (DynamicFetchRequest.proxy req) in
  let kwargs := set_if (truthy v) "proxy" v kwargs in
  let v := to_py (DynamicFetchRequest.extra_headers req) in
  let kwargs := set_if (truthy v) "extra_headers" v kwargs in
  let v := to_py (DynamicFetchRequest.useragent req) in
  let kwargs := set_if (truthy v) "useragent" v kwargs in
  kwargs.

Definition _build_stealthy_kwargs (req : StealthyFetchRequest.t) : gmap string PyVal :=
  let kwargs := _build_dynamic_kwargs (StealthyFetchRequest.base req) in
  let kwargs := <["allow_webgl" := to_py (StealthyFetchRequest.allow_webgl req)]> kwargs in
  let kwargs := <["hide_canvas" := to_py (StealthyFetchRequest.hide_canvas req)]> kwargs in
  let kwargs := <["block_webrtc" := to_py (StealthyFetchRequest.block_webrtc req)]> kwargs in
  let kwargs := <["solve_cloudflare" := to_py (StealthyFetchRequest.solve_cloudflare req)]> kwargs in
  kwargs.

(** The lines with which [fetcher_post] and [fetcher_put] both start:
    the plain-fetch options, then [data], then [json]. *)
Definition _build_data_kwargs (req : FetcherDataRequest.t) : gmap string PyVal :=
  let kwargs := _build_fetcher_kwargs (FetcherDataRequest.base req) in
  let v := to_py (FetcherDataRequest.data req) in
  let kwargs := set_if (truthy v) "data" v kwargs in
  let v := to_py (FetcherDataRequest.json_data req) in
  let kwargs := set_if (is_not_None v) "json" v kwargs in
  kwargs.

(** ** The engine's response object

    [_response_to_dict] receives [response : Any].  The model keeps what
    the function looks at: for each attribute, the shape its [isinstance]
    tests separate and the outcome of each call the function makes on it. *)

(** [response.headers]: a [dict], or any other object with its truth
    value and what iterating [.items()] gives.  Keys and values are
    recorded by their [str()]. *)
Inductive HeadersObj : Type :=
  | HeadersDict (items : list (string * string))
  | HeadersObject (truth : bool) (items : result Exception (list (string * string))).

(** One element of a cookie sequence: a [dict] or anything else. *)
Inductive CookieObj : Type :=
  | CookieDict (cookie : gmap string string)
  | CookieObject.

(** [response.cookies]: a [dict], a [list] or [tuple], or anything else
    (with its truth value; [None] is [CookiesObject false]). *)
Inductive CookiesObj : Type :=
  | CookiesDict (m : gmap string string)
  | CookiesSeq (l : list CookieObj)
  | CookiesObject (truth : bool).

(** [response.body]: [bytes], [str], or any other object with the
    outcome of [str()] on it. *)
Inductive BodyObj : Type :=
  | BodyBytes (b : list Byte.byte)
  | BodyStr (s : string)
  | BodyObject (str_body : result Exception string).

(** An element matched by a selector: with an [html] attribute, or only
    its [str()].  A selector's outcome is the list of matched elements,
    or the exception raised by the query or while the elements are
    turned into text (one [try] guards both). *)
Inductive Element : Type :=
  | ElementHtml (html : string)
  | ElementObject (str_el : string).

Module Response.
Record t : Type := mk {
  url : string;          (* str(response.url) *)
  status : Z;
  reason : string;
  headers : HeadersObj;
  cookies : CookiesObj;
  body : BodyObj;
  css : string → result Exception (list Element);
  xpath : string → result Exception (list Element);
  str : string           (* str(response) *)
}.
End Response.

(** The dict returned by [_response_to_dict]. *)
Module ScrapeDict.
Record t : Type := mk {
  url : string;
  status : Z;
  reason : string;
  headers : gmap string string;
  cookies : gmap string string;
  body : string;
  selected_content : option (list string)
}.
End ScrapeDict.

Definition headers_truthy (h : HeadersObj) : bool :=
  match h with
  | HeadersDict items => negb (bool_decide (items = []))
  | HeadersObject truth _ => truth
  end.

Definition cookies_truthy (c : CookiesObj) : bool :=
  match c with
  | CookiesDict m => negb (bool_decide (m = ∅))
  | CookiesSeq l => negb (bool_decide (l = []))
  | CookiesObject truth => truth
  end.

(** [{str(k): str(v) for k, v in items}]: later items overwrite earlier
    ones with the same key. *)
Definition dict_of_items (items : list (string * string)) : gmap string string :=
  foldl (λ d kv, <[kv.1 := kv.2]> d) ∅ items.

(** Body of the loop over a cookie sequence. *)
Definition add_cookie (resp_cookies : gmap string string) (cookie : CookieObj)
    : gmap string string :=
  match cookie with
  | CookieDict cookie =>
      match cookie !! "name", cookie !! "value" with
      | Some name, Some value => <[name := value]> resp_cookies
      | _, _ => cookie ∪ resp_cookies          (* resp_cookies.update(cookie) *)
      end
  | CookieObject => resp_cookies
  end.

(** [el.html if hasattr(el, "html") else str(el)]. *)
Definition element_text (el : Element) : string :=
  match el with
  | ElementHtml html => html
  | ElementObject s => s
  end.

(** A selector argument that passes [if selector:]. *)
Definition selector_given (selector : option string) : option string :=
  match selector with
  | Some s => if truthy (to_py s) then Some s else None
  | None => None
  end.

(** ** What the gateway does to the outside: engine invocations and
    selector evaluations, in order. *)

Inductive EngineOp : Type :=
  | Fetcher_get
  | Fetcher_post
  | Fetcher_put
  | Fetcher_delete
  | DynamicFetcher_fetch
  | StealthyFetcher_fetch.

Inductive Event : Type :=
  | EngineCall (op : EngineOp) (url : string) (kwargs : gmap string PyVal)
  | CssCall (selector : string)
  | XpathCall (selector : string).

(** A request as routed: the path with its validated body. *)
Inductive Request : Type :=
  | POST_fetcher_get (req : FetcherGetRequest.t)
  | POST_fetcher_post (req : FetcherDataRequest.t)
  | POST_fetcher_put (req : FetcherDataRequest.t)
  | POST_fetcher_delete (req : FetcherGetRequest.t)
  | POST_dynamic_fetch (req : DynamicFetchRequest.t)
  | POST_stealthy_fetch (req : StealthyFetchRequest.t)
  | GET_health.

Inductive Content : Type :=
  | ScrapeContent (d : ScrapeDict.t)
  | DetailContent (detail : string)
  | HealthContent                     (* {"status": "ok"} *)
  | InternalServerError.

Record HttpResponse : Type := mkHttp { http_status : Z; http_content : Content }.

(** What the framework sends for a handler's outcome: 200 with the
    returned content, the status and detail of an [HTTPException], 500
    for any other exception. *)
Definition respond (r : result Raised Content) : HttpResponse :=
  match r with
  | Ok c => mkHttp 200 c
  | Raise (HTTPException status_code detail) => mkHttp status_code (DetailContent detail)
  | Raise (Unhandled _) => mkHttp 500 InternalServerError
  end.

(** ** The gateway over an engine *)

Section Gateway.

(** The engine is outside the gateway: whatever it reads and changes
    (network, browser pool) is [World]. *)
Variable World : Type.
Variable engine :
  EngineOp → string → gmap string PyVal → World → result Exception Response.t * World.

(** [bytes.decode("utf-8", errors="replace")], which does not raise. *)
Variable decode_utf8_replace : list Byte.byte → string.

Record State : Type := mkState { world : World; trace : list Event }.

(** Computations of the gateway: they read and change the world and
    extend the trace. *)
Definition M (A : Type) : Type := State → A * State.

Definition ret {A} (a : A) : M A := λ s, (a, s).

Definition bind {A B} (m : M A) (k : A → M B) : M B :=
  λ s, let '(a, s') := m s in k a s'.

Notation "x <- m ;; k" := (bind m (λ x, k))
  (at level 100, m at next level, right associativity).

Definition log (ev : Event) : M unit :=
  λ s, (tt, mkState (world s) (trace s ++ [ev])).

(** [response.css(selector)] and [response.xpath(selector)]. *)
Definition call_css (response : Response.t) (selector : string)
    : M (result Exception (list Element)) :=
  _ <- log (CssCall selector) ;;
  ret (Response.css response selector).

Definition call_xpath (response : Response.t) (selector : string)
    : M (result Exception (list Element)) :=
  _ <- log (XpathCall selector) ;;
  ret (Response.xpath response selector).

(** An engine operation called as [op(url, **kwargs)]. *)
Definition call_engine (op : EngineOp) (url : string) (kwargs : gmap string PyVal)
    : M (result Exception Response.t) :=
  _ <- log (EngineCall op url kwargs) ;;
  λ s, let '(r, w) := engine op url kwargs (world s) in (r, mkState w (trace s)).

Definition _response_to_dict (response : Response.t)
    (css_selector xpath_selector : option string) : M ScrapeDict.t :=
  (* Extract headers as plain dict *)
  let resp_headers : gmap string string :=
    if headers_truthy (Response.headers response) then
      match Response.headers response with
      | HeadersDict items => dict_of_items items
      | HeadersObject _ items =>
          match items with
          | Ok items => dict_of_items items
          | Raise _ => ∅
          end
      end
    else ∅ in
  (* Extract cookies as plain dict *)
  let resp_cookies : gmap string string :=
    if cookies_truthy (Response.cookies response) then
      match Response.cookies response with
      | CookiesDict m => m
      | CookiesSeq l => foldl add_cookie ∅ l
      | CookiesObject _ => ∅
      end
    else ∅ in
  (* Body as string *)
  let body : string :=
    match Response.body response with
    | BodyBytes b => decode_utf8_replace b
    | BodyStr s => s
    | BodyObject (Ok s) => s
    | BodyObject (Raise _) => Response.str response
    end in
  (* Selected content via CSS or XPath *)
  selected <-
    match selector_given css_selector with
    | Some css_selector =>
        r <- call_css response css_selector ;;
        match r with
        | Ok elements => ret (Some (map element_text elements))
        | Raise e => ret (Some ["CSS selector error: " ++ exn_str e])
        end
    | None =>
        match selector_given xpath_selector with
        | Some xpath_selector =>
            r <- call_xpath response xpath_selector ;;
            match r with
            | Ok elements => ret (Some (map element_text elements))
            | Raise e => ret (Some ["XPath selector error: " ++ exn_str e])
            end
        | None => ret None
        end
    end ;;
  ret {| ScrapeDict.url := Response.url response;
         ScrapeDict.status := Response.status response;
         ScrapeDict.reason := Response.reason response;
         ScrapeDict.headers := resp_headers;
         ScrapeDict.cookies := resp_cookies;
         ScrapeDict.body := body;
         ScrapeDict.selected_content := selected |}.

(** The six fetch handlers.  [JSONResponse(content=...)] is the returned
    content; the framework answers 200 with it. *)
Definition fetcher_get (req : FetcherGetRequest.t) : M (result Raised Content) :=
  let kwargs := _build_fetcher_kwargs req in
  r <- call_engine Fetcher_get (FetcherGetRequest.url req) kwargs ;;
  match r with
  | Raise e => ret (Raise (HTTPException 502 (exn_str e)))
  | Ok response =>
      content <- _response_to_dict response (FetcherGetRequest.css_selector req)
                   (FetcherGetRequest.xpath_selector req) ;;
      ret (Ok (ScrapeContent content))
  end.

Definition fetcher_post (req : FetcherDataRequest.t) : M (result Raised Content) :=
  let kwargs := _build_data_kwargs req in
  let req := FetcherDataRequest.base req in
  r <- call_engine Fetcher_post (FetcherGetRequest.url req) kwargs ;;
  match r with
  | Raise e => ret (Raise (HTTPException 502 (exn_str e)))
  | Ok response =>
      content <- _response_to_dict response (FetcherGetRequest.css_selector req)
                   (FetcherGetRequest.xpath_selector req) ;;
      ret (Ok (ScrapeContent content))
  end.

Definition fetcher_put (req : FetcherDataRequest.t) : M (result Raised Content) :=
  let kwargs := _build_data_kwargs req in
  let req := FetcherDataRequest.base req in
  r <- call_engine Fetcher_put (FetcherGetRequest.url req) kwargs ;;
  match r with
  | Raise e => ret (Raise (HTTPException 502 (exn_str e)))
  | Ok response =>
      content <- _response_to_dict response (FetcherGetRequest.css_selector req)
                   (FetcherGetRequest.xpath_selector req) ;;
      ret (Ok (ScrapeContent content))
  end.

Definition fetcher_delete (req : FetcherGetRequest.t) : M (result Raised Content) :=
  let kwargs := _build_fetcher_kwargs req in
  r <- call_engine Fetcher_delete (FetcherGetRequest.url req) kwargs ;;
  match r with
  | Raise e => ret (Raise (HTTPException 502 (exn_str e)))
  | Ok response =>
      content <- _response_to_dict response (FetcherGetRequest.css_selector req)
                   (FetcherGetRequest.xpath_selector req) ;;
      ret (Ok (ScrapeContent content))
  end.

Definition dynamic_fetch (req : DynamicFetchRequest.t) : M (result Raised Content) :=
  let kwargs := _build_dynamic_kwargs req in
  r <- call_engine DynamicFetcher_fetch (DynamicFetchRequest.url req) kwargs ;;
  match r with
  | Raise e => ret (Raise (HTTPException 502 (exn_str e)))
  | Ok response =>
      content <- _response_to_dict response (DynamicFetchRequest.css_selector req)
                   (DynamicFetchRequest.xpath_selector req) ;;
      ret (Ok (ScrapeContent content))
  end.

Definition stealthy_fetch (req : StealthyFetchRequest.t) : M (result Raised Content) :=
  let kwargs := _build_stealthy_kwargs req in
  let req := StealthyFetchRequest.base req in
  r <- call_engine StealthyFetcher_fetch (DynamicFetchRequest.url req) kwargs ;;
  match r with
  | Raise e => ret (Raise (HTTPException 502 (exn_str e)))
  | Ok response =>
      content <- _response_to_dict response (DynamicFetchRequest.css_selector req)
                   (DynamicFetchRequest.xpath_selector req) ;;
      ret (Ok (ScrapeContent content))
  end.

(** The shape the six handlers have in common once their options are
    built; [handler_fetch] below shows each handler is an instance. *)
Definition fetch_with (op : EngineOp) (url : string) (kwargs : gmap string PyVal)
    (css_selector xpath_selector : option string) : M (result Raised Content) :=
  r <- call_engine op url kwargs ;;
  match r with
  | Raise e => ret (Raise (HTTPException 502 (exn_str e)))
  | Ok response =>
      content <- _response_to_dict response css_selector xpath_selector ;;
      ret (Ok (ScrapeContent content))
  end.

Definition health : M (result Raised Content) := ret (Ok HealthContent).

(** The handler of a routed request, and whether the route was
    registered with [dependencies=auth]. *)
Definition handler (rq : Request) : M (result Raised Content) :=
  match rq with
  | POST_fetcher_get req => fetcher_get req
  | POST_fetcher_post req => fetcher_post req
  | POST_fetcher_put req => fetcher_put req
  | POST_fetcher_delete req => fetcher_delete req
  | POST_dynamic_fetch req => dynamic_fetch req
  | POST_stealthy_fetch req => stealthy_fetch req
  | GET_health => health
  end.

Definition protected (rq : Request) : bool :=
  match rq with GET_health => false | _ => true end.

(** The application built by [create_app], serving one request: the
    auth dependency runs first on protected routes, then the handler. *)
Definition create_app (environ : gmap string string) (x_api_key : option string)
    (rq : Request) : M HttpResponse :=
  let auth := if protected rq then _verify_api_key environ x_api_key else Ok tt in
  match auth with
  | Raise e => ret (respond (Raise e))
  | Ok _ =>
      r <- handler rq ;;
      ret (respond r)
  end.

End Gateway.

Arguments mkState {World} world trace.
Arguments world {World} s.
Arguments trace {World} s.
Arguments ret {World A} a s.
Arguments bind {World A B} m k s.
Arguments log {World} ev s.
Arguments call_css {World} response selector s.
Arguments call_xpath {World} response selector s.
Arguments call_engine {World} engine op url kwargs s.
Arguments _response_to_dict {World} decode_utf8_replace response
  css_selector xpath_selector s.
Arguments fetch_with {World} engine decode_utf8_replace op url kwargs
  css_selector xpath_selector s.
Arguments handler {World} engine decode_utf8_replace rq s.
Arguments create_app {World} engine decode_utf8_replace environ x_api_key rq s.

(** What each fetch handler hands to [fetch_with]: the engine operation,
    the url, the option map and the two selectors.  [handler_fetch]
    below ties it to the handlers. *)
Definition route_fetch (rq : Request)
    : option (EngineOp * string * gmap string PyVal * option string * option string) :=
  match rq with
  | POST_fetcher_get req =>
      Some (Fetcher_get, FetcherGetRequest.url req, _build_fetcher_kwargs req,
            FetcherGetRequest.css_selector req, FetcherGetRequest.xpath_selector req)
  | POST_fetcher_post req =>
      let base := FetcherDataRequest.base req in
      Some (Fetcher_post, FetcherGetRequest.url base, _build_data_kwargs req,
            FetcherGetRequest.css_selector base, FetcherGetRequest.xpath_selector base)
  | POST_fetcher_put req =>
      let base := FetcherDataRequest.base req in
      Some (Fetcher_put, FetcherGetRequest.url base, _build_data_kwargs req,
            FetcherGetRequest.css_selector base, FetcherGetRequest.xpath_selector base)
  | POST_fetcher_delete req =>
      Some (Fetcher_delete, FetcherGetRequest.url req, _build_fetcher_kwargs req,
            FetcherGetRequest.css_selector req, FetcherGetRequest.xpath_selector req)
  | POST_dynamic_fetch req =>
      Some (DynamicFetcher_fetch, DynamicFetchRequest.url req, _build_dynamic_kwargs req,
            DynamicFetchRequest.css_selector req, DynamicFetchRequest.xpath_selector req)
  | POST_stealthy_fetch req =>
      let base := StealthyFetchRequest.base req in
      Some (StealthyFetcher_fetch, DynamicFetchRequest.url base, _build_stealthy_kwargs req,
            DynamicFetchRequest.css_selector base, DynamicFetchRequest.xpath_selector base)
  | GET_health => None
  end.

Definition is_engine_call (ev : Event) : bool :=
  match ev with EngineCall _ _ _ => true | _ => false end.

(** ** Concrete inputs used by the examples below *)

Definition example_url : string := "https://example.com".

(** A header value with the single character U+00E9. *)
Definition non_ascii_key : string := String "233"%char "".

Definition environ_with_key : gmap string string := {["SCRAPLING_API_KEY" := "secret"]}.

(** A response whose headers cannot be iterated, whose cookies are of no
    known shape, whose body is an integer, and on which every selector
    raises. *)
Definition broken_response : Response.t :=
  {| Response.url := example_url;
     Response.status := 200;
     Response.reason := "OK";
     Response.headers := HeadersObject true (Raise (mkException "TypeError" "not iterable"));
     Response.cookies := CookiesObject true;
     Response.body := BodyObject (Ok "42");
     Response.css := λ _, Raise (mkException "SelectorSyntaxError" "bad selector");
     Response.xpath := λ _, Raise (mkException "XPathEvalError" "Invalid expression");
     Response.str := "<200 https://example.com>" |}.

(** A well-formed response with one link. *)
Definition page_response : Response.t :=
  {| Response.url := example_url;
     Response.status := 200;
     Response.reason := "OK";
     Response.headers := HeadersDict [("content-type", "text/html")];
     Response.cookies := CookiesSeq [CookieDict {["name" := "sid"; "value" := "1"]}];
     Response.body := BodyStr "<a>x</a>";
     Response.css := λ _, Ok [ElementHtml "<a>x</a>"];
     Response.xpath := λ _, Ok [ElementObject "x"];
     Response.str := "<200 https://example.com>" |}.


Definition broken_engine (op : EngineOp) (url : string) (kwargs : gmap string PyVal)
    (w : nat) : result Exception Response.t * nat :=
  (Ok broken_response, S w).

Definition page_engine (op : EngineOp) (url : string) (kwargs : gmap string PyVal)
    (w : nat) : result Exception Response.t * nat :=
  (Ok page_response, S w).

Definition no_decode (b : list Byte.byte) : string := "".

Definition initial_state : State nat := mkState 0%nat [].

(** A request with a body for POST or PUT that carries both a form-data
    map and a JSON payload. *)
Definition data_request : FetcherDataRequest.t :=
  {| FetcherDataRequest.base :=
       FetcherGetRequest.validate (FetcherGetRequest.Input.only_url example_url);
     FetcherDataRequest.data := Some {["a" := "b"]};
     FetcherDataRequest.json_data := JObj [("k", JNum 1)] |}.

Definition dynamic_request (css_selector xpath_selector : option string)
    : DynamicFetchRequest.t :=
  let b := DynamicFetchRequest.Input.only_url example_url in
  let r := DynamicFetchRequest.validate b in
  DynamicFetchRequest.mk
    (DynamicFetchRequest.url r) (DynamicFetchRequest.headless r)
    (DynamicFetchRequest.disable_resources r) (DynamicFetchRequest.network_idle r)
    (DynamicFetchRequest.load_dom r) (DynamicFetchRequest.timeout r)
    (DynamicFetchRequest.wait r) (DynamicFetchRequest.wait_selector r)
    (DynamicFetchRequest.wait_selector_state r) (DynamicFetchRequest.locale r)
    (DynamicFetchRequest.real_chrome r) (DynamicFetchRequest.cdp_url r)
    (DynamicFetchRequest.proxy r) (DynamicFetchRequest.extra_headers r)
    (DynamicFetchRequest.useragent r) (DynamicFetchRequest.google_search r)
    css_selector xpath_selector.

(** An entry of a cookie sequence as a browser engine gives it: a record
    with a name, a value and further attributes (domain, path, ...), or,
    for [None], something that is not a dict. *)
Definition cookie_entry (e : option (string * string * gmap string string)) : CookieObj :=
  match e with
  | Some (name, value, attrs) =>
      CookieDict (<["name" := name]> (<["value" := value]> attrs))
  | None => CookieObject
  end.

(** The name and value of such an entry. *)
Definition cookie_pair (e : option (string * string * gmap string string))
    : option (string * string) :=
  match e with
  | Some (name, value, _) => Some (name, value)
  | None => None
  end.

(** A plain-fetch request with only a url, and the same with a form-data
    map that is empty. *)
Definition plain_request : FetcherGetRequest.t :=
  FetcherGetRequest.validate (FetcherGetRequest.Input.only_url example_url).

Definition empty_data_request : FetcherDataRequest.t :=
  {| FetcherDataRequest.base := plain_request;
     FetcherDataRequest.data := Some ∅;
     FetcherDataRequest.json_data := JNull |}.

(** A response as a browser engine gives it: headers in an object that
    lists one key twice, cookies as a sequence with one record and one
    entry that is not a dict. *)
Definition browser_response : Response.t :=
  {| Response.url := example_url;
     Response.status := 200;
     Response.reason := "OK";
     Response.headers :=
       HeadersObject true (Ok [("set-cookie", "a=1"); ("set-cookie", "b=2")]);
     Response.cookies :=
       CookiesSeq (cookie_entry <$>
                     [Some ("sid", "1", {["domain" := "example.com"]}); None]);
     Response.body := BodyStr "<a>x</a>";
     Response.css := λ _, Ok [];
     Response.xpath := λ _, Ok [ElementHtml "<a>x</a>"; ElementObject "x"];
     Response.str := "<200 https://example.com>" |}.

(** A response whose only cookie record has a name and no value. *)
Definition nameless_cookie_response : Response.t :=
  {| Response.url := example_url;
     Response.status := 200;
     Response.reason := "OK";
     Response.headers := HeadersDict [];
     Response.cookies := CookiesSeq ([] ++ [CookieDict {["name" := "sid"]}]);
     Response.body := BodyStr "";
     Response.css := λ _, Ok [];
     Response.xpath := λ _, Ok [];
     Response.str := "<200 https://example.com>" |}.

(** * Properties *)

(** ** Option maps: lookups through conditional assignments *)

Lemma lookup_set_if_ne (c : bool) (key k : string) (v : PyVal) (m : gmap string PyVal) :
  key ≠ k → set_if c key v m !! k = m !! k.
Proof. intros Hne. unfold set_if. destruct c; [by rewrite lookup_insert_ne | done]. Qed.

Lemma lookup_set_if_eq (c : bool) (key : string) (v : PyVal) (m : gmap string PyVal) :
  set_if c key v m !! key = if c then Some v else m !! key.
Proof. unfold set_if. destruct c; [by rewrite lookup_insert_eq | done]. Qed.

Lemma dom_set_if_subseteq (c : bool) (key : string) (v : PyVal)
    (m : gmap string PyVal) (X : gset string) :
  key ∈ X → dom m ⊆ X → dom (set_if c key v m) ⊆ X.
Proof. intros Hk Hm. unfold set_if. destruct c; [rewrite dom_insert_L|]; set_solver. Qed.

Lemma truthy_dict (m : gmap string string) :
  truthy (PyDict m) = if decide (m = ∅) then false else true.
Proof.
  simpl. case_decide; [by rewrite bool_decide_eq_true_2 | by rewrite bool_decide_eq_false_2].
Qed.

Lemma truthy_str (s : string) :
  truthy (PyStr s) = if decide (s = "") then false else true.
Proof.
  simpl. case_decide as H.
  - subst. reflexivity.
  - destruct (String.eqb_spec s ""); [done | reflexivity].
Qed.

Lemma selector_given_Some (s : string) :
  s ≠ "" → selector_given (Some s) = Some s.
Proof. intros Hs. unfold selector_given. rewrite truthy_str. by case_decide. Qed.

#[local] Arguments truthy : simpl never.

Ltac py_values :=
  simpl;
  cbv [to_py option_to_py dict_to_py str_to_py bool_to_py int_to_py json_to_py
       field is_not_None];
  rewrite ?truthy_dict, ?truthy_str; repeat case_decide; try done.

Ltac lookup_kwargs :=
  repeat (rewrite lookup_set_if_ne by (intros [=]));
  repeat (rewrite lookup_insert_ne by (intros [=]));
  try rewrite lookup_set_if_eq;
  try rewrite lookup_insert_eq;
  repeat (rewrite lookup_set_if_ne by (intros [=]));
  repeat (rewrite lookup_insert_ne by (intros [=]));
  try rewrite lookup_empty.

(** ** The plain-fetch mapper *)

(** C2, as the claim states it, fails: a body that leaves [timeout],
    [follow_redirects], [verify] and [stealthy_headers] unset is mapped
    to an option map that carries all four, with the schema defaults. *)
Lemma fetcher_kwargs_unset_defaults_forwarded :
  let b := FetcherGetRequest.Input.only_url example_url in
  let kwargs := _build_fetcher_kwargs (FetcherGetRequest.validate b) in
  (FetcherGetRequest.Input.timeout b = Unset ∧ kwargs !! "timeout" = Some (PyInt 30)) ∧
  (FetcherGetRequest.Input.follow_redirects b = Unset ∧
     kwargs !! "follow_redirects" = Some (PyBool true)) ∧
  (FetcherGetRequest.Input.verify b = Unset ∧ kwargs !! "verify" = Some (PyBool true)) ∧
  (FetcherGetRequest.Input.stealthy_headers b = Unset ∧
     kwargs !! "stealthy_headers" = Some (PyBool true)).
Proof. repeat split. Qed.

(** C2, amended: the option map of a plain-fetch request has a key
    exactly when the validated field is not [None] (and, for strings and
    maps, not empty).  In terms of the request body: the five fields
    whose default is [None] give no key when unset, null or empty;
    [timeout], [follow_redirects], [verify] and [stealthy_headers] give
    no key only when the body sets them to null, and when unset they are
    forwarded with the schema defaults 30, true, true, true.  No other
    key is ever present. *)
Theorem fetcher_kwargs_omission (b : FetcherGetRequest.Input.t) :
  let kwargs := _build_fetcher_kwargs (FetcherGetRequest.validate b) in
  kwargs !! "headers" =
    match FetcherGetRequest.Input.headers b with
    | Value m => if decide (m = ∅) then None else Some (PyDict m)
    | _ => None
    end ∧
  kwargs !! "cookies" =
    match FetcherGetRequest.Input.cookies b with
    | Value m => if decide (m = ∅) then None else Some (PyDict m)
    | _ => None
    end ∧
  kwargs !! "params" =
    match FetcherGetRequest.Input.params b with
    | Value m => if decide (m = ∅) then None else Some (PyDict m)
    | _ => None
    end ∧
  kwargs !! "proxy" =
    match FetcherGetRequest.Input.proxy b with
    | Value s => if decide (s = "") then None else Some (PyStr s)
    | _ => None
    end ∧
  kwargs !! "impersonate" =
    match FetcherGetRequest.Input.impersonate b with
    | Value s => if decide (s = "") then None else Some (PyStr s)
    | _ => None
    end ∧
  kwargs !! "timeout" =
    match FetcherGetRequest.Input.timeout b with
    | Unset => Some (PyInt 30)
    | Null => None
    | Value n => Some (PyInt n)
    end ∧
  kwargs !! "follow_redirects" =
    match FetcherGetRequest.Input.follow_redirects b with
    | Unset => Some (PyBool true)
    | Null => None
    | Value x => Some (PyBool x)
    end ∧
  kwargs !! "verify" =
    match FetcherGetRequest.Input.verify b with
    | Unset => Some (PyBool true)
    | Null => None
    | Value x => Some (PyBool x)
    end ∧
  kwargs !! "stealthy_headers" =
    match FetcherGetRequest.Input.stealthy_headers b with
    | Unset => Some (PyBool true)
    | Null => None
    | Value x => Some (PyBool x)
    end ∧
  dom kwargs ⊆ {[ "headers"; "cookies"; "params"; "proxy"; "timeout";
                  "follow_redirects"; "verify"; "impersonate"; "stealthy_headers" ]}.
Proof.
  intros kwargs. subst kwargs. unfold _build_fetcher_kwargs. cbv zeta.
  destruct b as [u h c p px t fr v im sh cs xs].
  repeat split; lookup_kwargs.
  - destruct h; py_values.
  - destruct c; py_values.
  - destruct p; py_values.
  - destruct px; py_values.
  - destruct im; py_values.
  - destruct t; py_values.
  - destruct fr; py_values.
  - destruct v; py_values.
  - destruct sh; py_values.
  - repeat (apply dom_set_if_subseteq; [set_solver |]). set_solver.
Qed.

(** ** The browser-fetch mapper *)

Lemma dynamic_kwargs_dom (req : DynamicFetchRequest.t) :
  dom (_build_dynamic_kwargs req) ⊆
    {[ "headless"; "disable_resources"; "network_idle"; "load_dom"; "timeout";
       "real_chrome"; "google_search"; "wait"; "wait_selector";
       "wait_selector_state"; "locale"; "cdp_url"; "proxy"; "extra_headers";
       "useragent" ]}.
Proof.
  unfold _build_dynamic_kwargs. cbv zeta.
  repeat (apply dom_set_if_subseteq; [set_solver |]).
  rewrite !dom_insert_L. set_solver.
Qed.

Lemma dynamic_kwargs_not_key (req : DynamicFetchRequest.t) (k : string) :
  k ∉ ({[ "headless"; "disable_resources"; "network_idle"; "load_dom"; "timeout";
          "real_chrome"; "google_search"; "wait"; "wait_selector";
          "wait_selector_state"; "locale"; "cdp_url"; "proxy"; "extra_headers";
          "useragent" ]} : gset string) →
  _build_dynamic_kwargs req !! k = None.
Proof.
  intros Hk. apply not_elem_of_dom. intros Hin. apply Hk.
  by apply (dynamic_kwargs_dom req).
Qed.

(** C5: the option map of every validated browser-fetch request has the
    keys [headless], [disable_resources], [network_idle], [load_dom],
    [real_chrome], [google_search] and [timeout], each bound to the
    request's value (whatever it is, [None] included); and a body that
    leaves them unset is mapped to the defaults of the gateway's schema:
    true, false, false, true, false, true and 30000. *)
Theorem dynamic_kwargs_always_forwarded :
  (∀ req : DynamicFetchRequest.t,
     let kwargs := _build_dynamic_kwargs req in
     kwargs !! "headless" = Some (to_py (DynamicFetchRequest.headless req)) ∧
     kwargs !! "disable_resources" = Some (to_py (DynamicFetchRequest.disable_resources req)) ∧
     kwargs !! "network_idle" = Some (to_py (DynamicFetchRequest.network_idle req)) ∧
     kwargs !! "load_dom" = Some (to_py (DynamicFetchRequest.load_dom req)) ∧
     kwargs !! "real_chrome" = Some (to_py (DynamicFetchRequest.real_chrome req)) ∧
     kwargs !! "google_search" = Some (to_py (DynamicFetchRequest.google_search req)) ∧
     kwargs !! "timeout" = Some (to_py (DynamicFetchRequest.timeout req))) ∧
  (∀ u : string,
     let b := DynamicFetchRequest.Input.only_url u in
     let kwargs := _build_dynamic_kwargs (DynamicFetchRequest.validate b) in
     kwargs !! "headless" = Some (PyBool true) ∧
     kwargs !! "disable_resources" = Some (PyBool false) ∧
     kwargs !! "network_idle" = Some (PyBool false) ∧
     kwargs !! "load_dom" = Some (PyBool true) ∧
     kwargs !! "real_chrome" = Some (PyBool false) ∧
     kwargs !! "google_search" = Some (PyBool true) ∧
     kwargs !! "timeout" = Some (PyInt 30000)).
Proof.
  split.
  - intros req kwargs. subst kwargs. unfold _build_dynamic_kwargs. cbv zeta.
    repeat split; by lookup_kwargs.
  - intros u b kwargs. subst kwargs b. repeat split.
Qed.

(** ** The stealthy mapper *)

(** C8: the stealthy option map extends the browser mapper's map for the
    same request: every entry of the browser map is kept, the four keys
    [allow_webgl], [hide_canvas], [block_webrtc] and [solve_cloudflare]
    are bound to the request's values whatever these are, none of the
    four is a key of the browser map, and there is no further key. *)
Theorem stealthy_kwargs_extends_dynamic (req : StealthyFetchRequest.t) :
  let dynamic := _build_dynamic_kwargs (StealthyFetchRequest.base req) in
  let kwargs := _build_stealthy_kwargs req in
  dynamic ⊆ kwargs ∧
  kwargs !! "allow_webgl" = Some (to_py (StealthyFetchRequest.allow_webgl req)) ∧
  kwargs !! "hide_canvas" = Some (to_py (StealthyFetchRequest.hide_canvas req)) ∧
  kwargs !! "block_webrtc" = Some (to_py (StealthyFetchRequest.block_webrtc req)) ∧
  kwargs !! "solve_cloudflare" = Some (to_py (StealthyFetchRequest.solve_cloudflare req)) ∧
  dynamic !! "allow_webgl" = None ∧
  dynamic !! "hide_canvas" = None ∧
  dynamic !! "block_webrtc" = None ∧
  dynamic !! "solve_cloudflare" = None ∧
  dom kwargs =
    dom dynamic ∪ {[ "allow_webgl"; "hide_canvas"; "block_webrtc"; "solve_cloudflare" ]}.
Proof.
  intros dynamic kwargs.
  assert (Hw : dynamic !! "allow_webgl" = None)
    by (apply dynamic_kwargs_not_key; set_solver).
  assert (Hc : dynamic !! "hide_canvas" = None)
    by (apply dynamic_kwargs_not_key; set_solver).
  assert (Hr : dynamic !! "block_webrtc" = None)
    by (apply dynamic_kwargs_not_key; set_solver).
  assert (Hs : dynamic !! "solve_cloudflare" = None)
    by (apply dynamic_kwargs_not_key; set_solver).
  subst kwargs. unfold _build_stealthy_kwargs. cbv zeta. fold dynamic.
  split; [| repeat split; try done; try by lookup_kwargs].
  - etrans; [apply (insert_subseteq _ "allow_webgl"); exact Hw |].
    etrans; [apply (insert_subseteq _ "hide_canvas"); by lookup_kwargs |].
    etrans; [apply (insert_subseteq _ "block_webrtc"); by lookup_kwargs |].
    apply (insert_subseteq _ "solve_cloudflare"); by lookup_kwargs.
  - rewrite !dom_insert_L. set_solver.
Qed.

(** ** Running the gateway's computations *)

Section Runs.

Context {World : Type}.
Variable engine :
  EngineOp → string → gmap string PyVal → World → result Exception Response.t * World.
Variable decode : list Byte.byte → string.

(** Without a selector the normalizer does nothing to the outside. *)
Lemma response_to_dict_no_selector (response : Response.t) (css xp : option string)
    (s : State World) :
  selector_given css = None → selector_given xp = None →
  ScrapeDict.selected_content (_response_to_dict decode response css xp s).1 = None ∧
  (_response_to_dict decode response css xp s).2 = s.
Proof. intros Hc Hx. unfold _response_to_dict, bind. rewrite Hc, Hx. done. Qed.

Lemma response_to_dict_css (response : Response.t) (css xp : option string)
    (s : State World) (c : string) :
  selector_given css = Some c →
  ScrapeDict.selected_content (_response_to_dict decode response css xp s).1 =
    Some (match Response.css response c with
          | Ok elements => map element_text elements
          | Raise e => ["CSS selector error: " ++ exn_str e]
          end) ∧
  (_response_to_dict decode response css xp s).2 =
    mkState (world s) (trace s ++ [CssCall c]).
Proof.
  intros Hc. unfold _response_to_dict, bind, call_css, bind, log, ret.
  rewrite Hc. simpl. by destruct (Response.css response c).
Qed.

Lemma response_to_dict_xpath (response : Response.t) (css xp : option string)
    (s : State World) (x : string) :
  selector_given css = None → selector_given xp = Some x →
  ScrapeDict.selected_content (_response_to_dict decode response css xp s).1 =
    Some (match Response.xpath response x with
          | Ok elements => map element_text elements
          | Raise e => ["XPath selector error: " ++ exn_str e]
          end) ∧
  (_response_to_dict decode response css xp s).2 =
    mkState (world s) (trace s ++ [XpathCall x]).
Proof.
  intros Hc Hx. unfold _response_to_dict, bind, call_xpath, bind, log, ret.
  rewrite Hc, Hx. simpl. by destruct (Response.xpath response x).
Qed.

(** The selectors and the state have no part in the other six fields. *)
Lemma response_to_dict_fields (response : Response.t) (css xp css' xp' : option string)
    (s s' : State World) :
  let d := (_response_to_dict decode response css xp s).1 in
  let d' := (_response_to_dict decode response css' xp' s').1 in
  ScrapeDict.url d = ScrapeDict.url d' ∧
  ScrapeDict.status d = ScrapeDict.status d' ∧
  ScrapeDict.reason d = ScrapeDict.reason d' ∧
  ScrapeDict.headers d = ScrapeDict.headers d' ∧
  ScrapeDict.cookies d = ScrapeDict.cookies d' ∧
  ScrapeDict.body d = ScrapeDict.body d'.
Proof.
  unfold _response_to_dict, bind, call_css, call_xpath, bind, log, ret.
  destruct (selector_given css), (selector_given xp),
    (selector_given css'), (selector_given xp'); simpl;
    repeat match goal with
      | |- context [match ?r with Ok _ => _ | Raise _ => _ end] => destruct r
      end; simpl; done.
Qed.

(** The normalizer never calls the engine, leaves the world as it is and
    evaluates at most one selector. *)
Lemma response_to_dict_state (response : Response.t) (css xp : option string)
    (s : State World) :
  ∃ evs, (_response_to_dict decode response css xp s).2 = mkState (world s) (trace s ++ evs)
    ∧ Forall (λ ev, is_engine_call ev = false) evs ∧ (length evs ≤ 1)%nat.
Proof.
  destruct (selector_given css) as [c|] eqn:Hc.
  - exists [CssCall c]. split; [| split; [by repeat constructor | simpl; lia]].
    by apply (response_to_dict_css response css xp s c).
  - destruct (selector_given xp) as [x|] eqn:Hx.
    + exists [XpathCall x]. split; [| split; [by repeat constructor | simpl; lia]].
      by apply (response_to_dict_xpath response css xp s x).
    + exists []. split; [| split; [constructor | simpl; lia]].
      rewrite app_nil_r. destruct s.
      by apply (response_to_dict_no_selector response css xp).
Qed.

Lemma fetch_with_raise (op : EngineOp) (url : string) (kwargs : gmap string PyVal)
    (css xp : option string) (s : State World) (e : Exception) (w : World) :
  engine op url kwargs (world s) = (Raise e, w) →
  fetch_with engine decode op url kwargs css xp s =
    (Raise (HTTPException 502 (exn_str e)),
     mkState w (trace s ++ [EngineCall op url kwargs])).
Proof.
  intros He. unfold fetch_with, bind, call_engine, bind, log, ret. simpl.
  by rewrite He.
Qed.

Lemma fetch_with_ok (op : EngineOp) (url : string) (kwargs : gmap string PyVal)
    (css xp : option string) (s : State World) (response : Response.t) (w : World) :
  engine op url kwargs (world s) = (Ok response, w) →
  fetch_with engine decode op url kwargs css xp s =
    let r := _response_to_dict decode response css xp
               (mkState w (trace s ++ [EngineCall op url kwargs])) in
    (Ok (ScrapeContent r.1), r.2).
Proof.
  intros He. unfold fetch_with, bind, call_engine, bind, log, ret. simpl.
  rewrite He. by destruct (_response_to_dict _ _ _ _ _).
Qed.

(** Each fetch handler is [fetch_with] at the route's engine call. *)
Lemma handler_fetch (rq : Request) (op : EngineOp) (url : string)
    (kwargs : gmap string PyVal) (css xp : option string) (s : State World) :
  route_fetch rq = Some (op, url, kwargs, css, xp) →
  handler engine decode rq s = fetch_with engine decode op url kwargs css xp s.
Proof. intros Hr. destruct rq; simplify_eq/=; reflexivity. Qed.

Lemma route_fetch_protected (rq : Request) :
  is_Some (route_fetch rq) → protected rq = true.
Proof. destruct rq; simpl; [done.. | by intros [? ?]]. Qed.

(** Past the auth dependency the response is the handler's outcome. *)
Lemma create_app_authorized (environ : gmap string string) (x_api_key : option string)
    (rq : Request) (s : State World) :
  _verify_api_key environ x_api_key = Ok tt →
  create_app engine decode environ x_api_key rq s =
    (respond (handler engine decode rq s).1, (handler engine decode rq s).2).
Proof.
  intros Ha. unfold create_app, bind, ret. rewrite Ha.
  destruct (protected rq); by destruct (handler engine decode rq s).
Qed.

(** Whatever the engine does, a fetch handler invokes it exactly once,
    with the options it was given, before anything else. *)
Lemma fetch_with_calls_engine (op : EngineOp) (url : string)
    (kwargs : gmap string PyVal) (css xp : option string) (s : State World) :
  ∃ evs, trace (fetch_with engine decode op url kwargs css xp s).2 =
           (trace s ++ EngineCall op url kwargs :: evs)%list
    ∧ Forall (λ ev, is_engine_call ev = false) evs.
Proof.
  destruct (engine op url kwargs (world s)) as [[response | e] w] eqn:He.
  - rewrite (fetch_with_ok _ _ _ _ _ _ _ _ He). cbv zeta.
    destruct (response_to_dict_state response css xp
                (mkState w (trace s ++ [EngineCall op url kwargs])))
      as (evs & Hst & Hev & _).
    exists evs. split; [| exact Hev].
    simpl. rewrite Hst. simpl. by rewrite <- app_assoc.
  - rewrite (fetch_with_raise _ _ _ _ _ _ _ _ He). exists []. by split.
Qed.

(** ** The response normalizer *)



(** ** The fetch routes *)


(** C6: on each fetch route, when the engine returns a response and the
    selector that is evaluated on it raises (the CSS selector if one is
    given, otherwise the XPath selector), the response is still 200,
    [selected_content] is the one-element list with the error text, and
    the other six fields are what the normalizer gives for the same
    response without any selector. *)
Theorem selector_fault_isolation (environ : gmap string string)
    (x_api_key : option string) (rq : Request) (op : EngineOp) (url : string)
    (kwargs : gmap string PyVal) (css xp : option string) (s : State World)
    (response : Response.t) (w : World) (sel label : string) (e : Exception) :
  route_fetch rq = Some (op, url, kwargs, css, xp) →
  _verify_api_key environ x_api_key = Ok tt →
  engine op url kwargs (world s) = (Ok response, w) →
  (selector_given css = Some sel ∧ Response.css response sel = Raise e ∧ label = "CSS") ∨
  (selector_given css = None ∧ selector_given xp = Some sel ∧
     Response.xpath response sel = Raise e ∧ label = "XPath") →
  ∃ d,
    (create_app engine decode environ x_api_key rq s).1 = mkHttp 200 (ScrapeContent d) ∧
    ScrapeDict.selected_content d = Some [label ++ " selector error: " ++ exn_str e] ∧
    let d0 := (_response_to_dict decode response None None s).1 in
    ScrapeDict.url d = ScrapeDict.url d0 ∧
    ScrapeDict.status d = ScrapeDict.status d0 ∧
    ScrapeDict.reason d = ScrapeDict.reason d0 ∧
    ScrapeDict.headers d = ScrapeDict.headers d0 ∧
    ScrapeDict.cookies d = ScrapeDict.cookies d0 ∧
    ScrapeDict.body d = ScrapeDict.body d0.
Proof.
  intros Hr Ha He Hsel. rewrite (create_app_authorized _ _ _ _ Ha).
  rewrite (handler_fetch _ _ _ _ _ _ _ Hr).
  rewrite (fetch_with_ok _ _ _ _ _ _ _ _ He). cbv zeta. simpl.
  eexists. split; [reflexivity |]. split.
  - destruct Hsel as [(Hc & Hraise & ->) | (Hc & Hx & Hraise & ->)].
    + destruct (response_to_dict_css response css xp
                  (mkState w (trace s ++ [EngineCall op url kwargs])) sel Hc)
        as [-> _].
      by rewrite Hraise.
    + destruct (response_to_dict_xpath response css xp
                  (mkState w (trace s ++ [EngineCall op url kwargs])) sel Hc Hx)
        as [-> _].
      by rewrite Hraise.
  - exact (response_to_dict_fields response css xp None None
             (mkState w (trace s ++ [EngineCall op url kwargs])) s).
Qed.

(** A failed key check is answered before the handler runs: nothing
    is done to the outside. *)
Lemma create_app_unauthorized (environ : gmap string string) (x_api_key : option string)
    (rq : Request) (s : State World) (e : Raised) :
  protected rq = true →
  _verify_api_key environ x_api_key = Raise e →
  create_app engine decode environ x_api_key rq s = (respond (Raise e), s).
Proof. intros Hp Ha. unfold create_app, ret. by rewrite Hp, Ha. Qed.

(** The health route answers 200 whatever the key and the header. *)
Lemma create_app_health (environ : gmap string string) (x_api_key : option string)
    (s : State World) :
  create_app engine decode environ x_api_key GET_health s = (mkHttp 200 HealthContent, s).
Proof. reflexivity. Qed.

End Runs.

(** ** The API key check *)

(** The check decided by the configured key and the presented header. *)
Lemma verify_api_key_spec (environ : gmap string string) (api_key : option string) :
  _verify_api_key environ api_key =
    match environ !! "SCRAPLING_API_KEY", api_key with
    | None, _ => Ok tt
    | Some _, None =>
        Raise (HTTPException 401 "Missing API key. Provide it via the X-API-Key header.")
    | Some expected, Some presented =>
        if is_ascii presented && is_ascii expected then
          if decide (presented = expected) then Ok tt
          else Raise (HTTPException 403 "Invalid API key.")
        else
          Raise (Unhandled (mkException "TypeError"
                   "comparing strings with non-ASCII characters is not supported"))
    end.
Proof.
  unfold _verify_api_key, _get_api_key, compare_digest.
  destruct (environ !! "SCRAPLING_API_KEY") as [expected|]; [| done].
  destruct api_key as [presented|]; [| done].
  destruct (is_ascii presented && is_ascii expected); [| done].
  case_decide as Heq.
  - subst. by rewrite String.eqb_refl.
  - by destruct (String.eqb_spec presented expected).
Qed.

(** With no key configured every header passes; with a key and no header
    the check raises 401; with a key and an ASCII header it raises 403
    unless the two are equal. *)
Lemma verify_api_key_ascii (environ : gmap string string) (expected presented : string) :
  environ !! "SCRAPLING_API_KEY" = Some expected →
  is_ascii expected = true → is_ascii presented = true →
  _verify_api_key environ (Some presented) =
    if decide (presented = expected) then Ok tt
    else Raise (HTTPException 403 "Invalid API key.").
Proof. intros He Ha Hp. rewrite verify_api_key_spec, He, Ha, Hp. done. Qed.

Lemma verify_api_key_disabled (environ : gmap string string) (api_key : option string) :
  environ !! "SCRAPLING_API_KEY" = None → _verify_api_key environ api_key = Ok tt.
Proof. intros He. by rewrite verify_api_key_spec, He. Qed.

Lemma verify_api_key_missing (environ : gmap string string) (expected : string) :
  environ !! "SCRAPLING_API_KEY" = Some expected →
  _verify_api_key environ None =
    Raise (HTTPException 401 "Missing API key. Provide it via the X-API-Key header.").
Proof. intros He. by rewrite verify_api_key_spec, He. Qed.

(** C1: with the key [secret] configured, a header holding the single
    character U+00E9 differs from the key, yet the check does not raise
    the 403 [HTTPException]: [secrets.compare_digest] raises [TypeError]
    on a non-ASCII [str], nothing handles it, and every protected route
    answers 500.  The same happens when the configured key is not ASCII,
    also for a header equal to it. *)
Theorem verify_api_key_non_ascii_raises :
  non_ascii_key ≠ "secret" ∧
  _verify_api_key environ_with_key (Some non_ascii_key) =
    Raise (Unhandled (mkException "TypeError"
             "comparing strings with non-ASCII characters is not supported")) ∧
  _verify_api_key {["SCRAPLING_API_KEY" := non_ascii_key]} (Some non_ascii_key) =
    Raise (Unhandled (mkException "TypeError"
             "comparing strings with non-ASCII characters is not supported")) ∧
  (∀ (World : Type) engine decode (rq : Request) (s : State World),
     (create_app engine decode environ_with_key (Some non_ascii_key) rq s).1 =
       if protected rq then mkHttp 500 InternalServerError
       else mkHttp 200 HealthContent).
Proof.
  split; [done |]. split; [reflexivity |]. split; [reflexivity |].
  intros World engine decode rq s. by destruct rq.
Qed.

(** ** Requests with a body *)

(** C9, as the claim states it, fails: with both a form-data map and a
    JSON payload in the request, the option map built for POST and PUT
    carries the form data under [data] next to the payload under
    [json]; nothing is dropped or reordered in favour of the payload. *)
Lemma data_kwargs_keep_form_data :
  FetcherDataRequest.data data_request = Some {["a" := "b"]} ∧
  FetcherDataRequest.json_data data_request = JObj [("k", JNum 1)] ∧
  _build_data_kwargs data_request !! "data" = Some (PyDict {["a" := "b"]}) ∧
  _build_data_kwargs data_request !! "json" = Some (PyJson (JObj [("k", JNum 1)])).
Proof. repeat split. Qed.

(** C9, amended: the option map of a request with a body is the
    plain-fetch map of the same request, plus [data] bound to the
    form-data map when that is not empty, plus [json] bound to the JSON
    payload when that is not null; the two keys are set independently,
    so when both are present both are forwarded, and this map is what
    the POST and the PUT handler pass to the engine. *)
Theorem data_kwargs_forward_both (req : FetcherDataRequest.t) :
  let base := FetcherDataRequest.base req in
  let kwargs := _build_data_kwargs req in
  kwargs !! "data" =
    match FetcherDataRequest.data req with
    | Some m => if decide (m = ∅) then None else Some (PyDict m)
    | None => None
    end ∧
  kwargs !! "json" =
    match FetcherDataRequest.json_data req with
    | JNull => None
    | j => Some (PyJson j)
    end ∧
  _build_fetcher_kwargs base ⊆ kwargs ∧
  dom kwargs ⊆ dom (_build_fetcher_kwargs base) ∪ {[ "data"; "json" ]} ∧
  (∀ (World : Type) engine decode (s : State World),
     (∃ evs, trace (handler engine decode (POST_fetcher_post req) s).2 =
               (trace s ++
                  EngineCall Fetcher_post (FetcherGetRequest.url base) kwargs :: evs)%list
        ∧ Forall (λ ev, is_engine_call ev = false) evs) ∧
     (∃ evs, trace (handler engine decode (POST_fetcher_put req) s).2 =
               (trace s ++
                  EngineCall Fetcher_put (FetcherGetRequest.url base) kwargs :: evs)%list
        ∧ Forall (λ ev, is_engine_call ev = false) evs)).
Proof.
  intros base kwargs.
  assert (Hd : _build_fetcher_kwargs base !! "data" = None).
  { unfold _build_fetcher_kwargs. cbv zeta. by lookup_kwargs. }
  assert (Hj : _build_fetcher_kwargs base !! "json" = None).
  { unfold _build_fetcher_kwargs. cbv zeta. by lookup_kwargs. }
  subst kwargs. unfold _build_data_kwargs. cbv zeta. fold base.
  repeat split.
  - lookup_kwargs. rewrite Hd. destruct (FetcherDataRequest.data req); py_values.
  - lookup_kwargs. rewrite Hj. by destruct (FetcherDataRequest.json_data req).
  - unfold set_if.
    destruct (truthy _), (is_not_None _); try done.
    + etrans; [apply (insert_subseteq _ "data"); exact Hd |].
      apply insert_subseteq. by rewrite lookup_insert_ne.
    + by apply insert_subseteq.
    + by apply insert_subseteq.
  - repeat (apply dom_set_if_subseteq; [set_solver |]). set_solver.
  - apply (fetch_with_calls_engine engine decode).
  - apply (fetch_with_calls_engine engine decode).
Qed.

(** ** Empty values *)

Lemma truthy_empty_str : truthy (PyStr "") = false.
Proof. reflexivity. Qed.

Lemma truthy_empty_dict : truthy (PyDict ∅) = false.
Proof. reflexivity. Qed.

Ltac empty_value :=
  intros; unfold _build_fetcher_kwargs, _build_dynamic_kwargs; simpl;
  cbv [to_py option_to_py dict_to_py str_to_py field];
  rewrite ?truthy_empty_str, ?truthy_empty_dict;
  first [reflexivity | by lookup_kwargs].

(** C10, as the claim states it, fails on [wait_selector_state]: set to
    the empty string it is left out of the option map, but left unset
    it takes the schema default and is forwarded as ["attached"]. *)
Lemma empty_wait_selector_state_not_as_unset :
  let unset := DynamicFetchRequest.Input.only_url example_url in
  let empty := DynamicFetchRequest.Input.with_wait_selector_state (Value "") unset in
  DynamicFetchRequest.Input.wait_selector_state unset = Unset ∧
  _build_dynamic_kwargs (DynamicFetchRequest.validate empty) !! "wait_selector_state" = None ∧
  _build_dynamic_kwargs (DynamicFetchRequest.validate unset) !! "wait_selector_state" =
    Some (PyStr "attached").
Proof. repeat split. Qed.

(** C10, amended: a field set to an empty value ([proxy], [impersonate],
    [wait_selector], [wait_selector_state], [locale], [cdp_url] or
    [useragent] to the empty string; [headers], [cookies], [params] or
    [extra_headers] to the empty map) is left out of the option map, and
    the map is the one built when the field is null.  For every one of
    these fields but [wait_selector_state] it is also the map built when
    the field is unset; an unset [wait_selector_state] is forwarded as
    ["attached"].  An empty [css_selector] is normalized like an absent
    one, so that a non-empty [xpath_selector] is evaluated. *)
Theorem empty_values_omitted :
  (∀ b : FetcherGetRequest.Input.t,
     let kw := λ b', _build_fetcher_kwargs (FetcherGetRequest.validate b') in
     let fetcher_field := λ (A : Type) (key : string) (empty : A)
         (set : Supplied A → FetcherGetRequest.Input.t → FetcherGetRequest.Input.t),
       kw (set (Value empty) b) !! key = None ∧
       kw (set (Value empty) b) = kw (set Null b) ∧
       kw (set (Value empty) b) = kw (set Unset b) in
     fetcher_field _ "headers" ∅ FetcherGetRequest.Input.with_headers ∧
     fetcher_field _ "cookies" ∅ FetcherGetRequest.Input.with_cookies ∧
     fetcher_field _ "params" ∅ FetcherGetRequest.Input.with_params ∧
     fetcher_field _ "proxy" "" FetcherGetRequest.Input.with_proxy ∧
     fetcher_field _ "impersonate" "" FetcherGetRequest.Input.with_impersonate) ∧
  (∀ b : DynamicFetchRequest.Input.t,
     let kw := λ b', _build_dynamic_kwargs (DynamicFetchRequest.validate b') in
     let dynamic_field := λ (A : Type) (key : string) (empty : A)
         (set : Supplied A → DynamicFetchRequest.Input.t → DynamicFetchRequest.Input.t),
       kw (set (Value empty) b) !! key = None ∧
       kw (set (Value empty) b) = kw (set Null b) ∧
       kw (set (Value empty) b) = kw (set Unset b) in
     dynamic_field _ "wait_selector" "" DynamicFetchRequest.Input.with_wait_selector ∧
     dynamic_field _ "locale" "" DynamicFetchRequest.Input.with_locale ∧
     dynamic_field _ "cdp_url" "" DynamicFetchRequest.Input.with_cdp_url ∧
     dynamic_field _ "proxy" "" DynamicFetchRequest.Input.with_proxy ∧
     dynamic_field _ "extra_headers" ∅ DynamicFetchRequest.Input.with_extra_headers ∧
     dynamic_field _ "useragent" "" DynamicFetchRequest.Input.with_useragent ∧
     kw (DynamicFetchRequest.Input.with_wait_selector_state (Value "") b)
       !! "wait_selector_state" = None ∧
     kw (DynamicFetchRequest.Input.with_wait_selector_state (Value "") b) =
       kw (DynamicFetchRequest.Input.with_wait_selector_state Null b) ∧
     kw (DynamicFetchRequest.Input.with_wait_selector_state Unset b)
       !! "wait_selector_state" = Some (PyStr "attached")) ∧
  (∀ (World : Type) decode (response : Response.t) (xp : option string) (s : State World),
     _response_to_dict decode response (Some "") xp s =
       _response_to_dict decode response None xp s) ∧
  (∀ (World : Type) decode (response : Response.t) (x : string) (s : State World),
     x ≠ "" →
     trace (_response_to_dict decode response (Some "") (Some x) s).2 =
       (trace s ++ [XpathCall x])%list).
Proof.
  split; [| split; [| split]].
  - intros b kw fetcher_field. subst fetcher_field kw. cbv beta.
    destruct b. repeat split; empty_value.
  - intros b kw dynamic_field. subst dynamic_field kw. cbv beta.
    destruct b. repeat split; empty_value.
  - reflexivity.
  - intros World decode response x s Hx.
    destruct (response_to_dict_xpath decode response (Some "") (Some x) s x)
      as [_ ->]; [reflexivity | by apply selector_given_Some | done].
Qed.

(** ** The properties above at concrete inputs *)





Lemma selector_fault_isolation_witness :
  let rq := POST_dynamic_fetch (dynamic_request (Some "div") None) in
  let kwargs := _build_dynamic_kwargs (dynamic_request (Some "div") None) in
  ∃ d,
    (create_app broken_engine no_decode environ_with_key (Some "secret") rq
       initial_state).1 = mkHttp 200 (ScrapeContent d) ∧
    ScrapeDict.selected_content d = Some ["CSS selector error: bad selector"] ∧
    ScrapeDict.url d = example_url ∧
    ScrapeDict.status d = 200 ∧
    ScrapeDict.reason d = "OK" ∧
    ScrapeDict.headers d = ∅ ∧
    ScrapeDict.cookies d = ∅ ∧
    ScrapeDict.body d = "42".
Proof.
  intros rq kwargs.
  exact (selector_fault_isolation broken_engine no_decode environ_with_key
           (Some "secret") rq DynamicFetcher_fetch example_url kwargs
           (Some "div") None initial_state broken_response 1%nat "div" "CSS"
           (mkException "SelectorSyntaxError" "bad selector")
           eq_refl eq_refl eq_refl
           (or_introl (conj eq_refl (conj eq_refl eq_refl)))).
Defined.


(** * Further properties of the code *)

(** ** Dict comprehensions *)





Section Normalizer.

Context {World : Type}.
Variable decode : list Byte.byte → string.

(** The six fields of the result that no selector touches. *)
Lemma response_to_dict_data (response : Response.t) (css xp : option string)
    (s : State World) :
  let d := (_response_to_dict decode response css xp s).1 in
  ScrapeDict.url d = Response.url response ∧
  ScrapeDict.status d = Response.status response ∧
  ScrapeDict.reason d = Response.reason response ∧
  ScrapeDict.headers d =
    (if headers_truthy (Response.headers response) then
       match Response.headers response with
       | HeadersDict items => dict_of_items items
       | HeadersObject _ (Ok items) => dict_of_items items
       | HeadersObject _ (Raise _) => ∅
       end
     else ∅) ∧
  ScrapeDict.cookies d =
    (if cookies_truthy (Response.cookies response) then
       match Response.cookies response with
       | CookiesDict m => m
       | CookiesSeq l => foldl add_cookie ∅ l
       | CookiesObject _ => ∅
       end
     else ∅) ∧
  ScrapeDict.body d =
    match Response.body response with
    | BodyBytes b => decode b
    | BodyStr text => text
    | BodyObject (Ok text) => text
    | BodyObject (Raise _) => Response.str response
    end.
Proof.
  pose proof (response_to_dict_fields decode response css xp None None s s) as Hf.
  cbv zeta in *. destruct Hf as (-> & -> & -> & -> & -> & ->).
  unfold _response_to_dict, bind, ret. simpl. repeat split.
Qed.


(** ** Cookie sequences *)

Lemma foldl_add_cookie_entries
    (entries : list (option (string * string * gmap string string)))
    (m : gmap string string) :
  foldl add_cookie m (cookie_entry <$> entries) =
    foldl (λ d kv, <[kv.1 := kv.2]> d) m (omap cookie_pair entries).
Proof.
  revert m. induction entries as [| [[[name value] attrs] |] entries IH]; intros m.
  - done.
  - simpl. rewrite <- IH. f_equal. unfold add_cookie.
    rewrite lookup_insert_eq, lookup_insert_ne by done.
    by rewrite lookup_insert_eq.
  - simpl. apply IH.
Qed.

(** From a cookie sequence whose entries are records with a name and
    a value, or are not dicts at all, the normalizer keeps the names
    bound to the values and nothing else: the other attributes of a
    record and the entries that are not dicts are dropped. *)
Theorem cookie_records_to_name_value_map (response : Response.t) (css xp : option string)
    (s : State World) (entries : list (option (string * string * gmap string string))) :
  Response.cookies response = CookiesSeq (cookie_entry <$> entries) →
  ScrapeDict.cookies (_response_to_dict decode response css xp s).1 =
    dict_of_items (omap cookie_pair entries).
Proof.
  intros Hc.
  destruct (response_to_dict_data response css xp s) as (_ & _ & _ & _ & -> & _).
  rewrite Hc. destruct entries as [| e entries]; [done |].
  cbn [cookies_truthy fmap list_fmap]. rewrite bool_decide_eq_false_2 by done.
  cbn [negb]. apply (foldl_add_cookie_entries (e :: entries)).
Qed.

(** A record without a name or without a value is merged whole into
    the cookies gathered so far, its entries replacing those with the
    same key. *)
Theorem cookie_record_without_value_merged (response : Response.t)
    (css xp : option string) (s : State World) (l : list CookieObj)
    (cookie : gmap string string) :
  Response.cookies response = CookiesSeq (l ++ [CookieDict cookie]) →
  cookie !! "name" = None ∨ cookie !! "value" = None →
  ScrapeDict.cookies (_response_to_dict decode response css xp s).1 =
    cookie ∪ foldl add_cookie ∅ l.
Proof.
  intros Hc Hmissing.
  destruct (response_to_dict_data response css xp s) as (_ & _ & _ & _ & -> & _).
  rewrite Hc. cbn [cookies_truthy].
  rewrite bool_decide_eq_false_2 by (by destruct l).
  cbn [negb]. rewrite foldl_app. simpl. unfold add_cookie.
  destruct Hmissing as [-> | Hv]; [done |].
  rewrite Hv. by destruct (cookie !! "name").
Qed.

(** ** Selected content *)

Lemma selector_given_None (selector : option string) :
  selector_given selector = None ↔ selector = None ∨ selector = Some "".
Proof.
  destruct selector as [sel |]; simpl; [| naive_solver].
  rewrite truthy_str. case_decide; naive_solver.
Qed.

(** [selected_content] is null exactly when no selector is given
    (each being absent or the empty string); a selector that matches
    nothing gives the empty list, not null. *)
Theorem selected_content_none_iff_no_selector (response : Response.t)
    (css xp : option string) (s : State World) :
  ScrapeDict.selected_content (_response_to_dict decode response css xp s).1 = None ↔
    (css = None ∨ css = Some "") ∧ (xp = None ∨ xp = Some "").
Proof.
  rewrite <- !selector_given_None.
  destruct (selector_given css) as [c |] eqn:Hc.
  - destruct (response_to_dict_css decode response css xp s c Hc) as [-> _].
    naive_solver.
  - destruct (selector_given xp) as [x |] eqn:Hx.
    + destruct (response_to_dict_xpath decode response css xp s x Hc Hx) as [-> _].
      naive_solver.
    + by destruct (response_to_dict_no_selector decode response css xp s Hc Hx)
        as [-> _].
Qed.

(** With no CSS selector given, a non-empty XPath selector that
    the response answers is the one selector evaluated, and
    [selected_content] lists the matched elements in order, each by its
    [html] when it has one and by its text otherwise. *)
Theorem xpath_selected_content (response : Response.t) (css : option string)
    (x : string) (s : State World) (elements : list Element) :
  css = None ∨ css = Some "" →
  x ≠ "" →
  Response.xpath response x = Ok elements →
  ScrapeDict.selected_content (_response_to_dict decode response css (Some x) s).1 =
    Some (element_text <$> elements) ∧
  (_response_to_dict decode response css (Some x) s).2 =
    mkState (world s) (trace s ++ [XpathCall x]).
Proof.
  intros Hc%selector_given_None Hx%selector_given_Some Hok.
  destruct (response_to_dict_xpath decode response css (Some x) s x Hc Hx) as [-> ->].
  by rewrite Hok.
Qed.

End Normalizer.

(** ** Option mappers *)

Lemma fetcher_kwargs_dom (req : FetcherGetRequest.t) :
  dom (_build_fetcher_kwargs req) ⊆
    {[ "headers"; "cookies"; "params"; "proxy"; "timeout"; "follow_redirects";
       "verify"; "impersonate"; "stealthy_headers" ]}.
Proof.
  unfold _build_fetcher_kwargs. cbv zeta.
  repeat (apply dom_set_if_subseteq; [set_solver |]). set_solver.
Qed.

(** The eight optional browser-fetch options, by what the request
    body gives for them.  [wait] is forwarded whenever it is not null,
    zero included; the string options and [extra_headers] are forwarded
    when not empty; [wait_selector_state] left unset is forwarded as
    ["attached"]. *)
Theorem dynamic_kwargs_optional_keys (b : DynamicFetchRequest.Input.t) :
  let kwargs := _build_dynamic_kwargs (DynamicFetchRequest.validate b) in
  let text := λ (supplied : Supplied string),
    match supplied with
    | Value s => if decide (s = "") then None else Some (PyStr s)
    | _ => None
    end in
  kwargs !! "wait" =
    match DynamicFetchRequest.Input.wait b with
    | Value n => Some (PyInt n)
    | _ => None
    end ∧
  kwargs !! "wait_selector" = text (DynamicFetchRequest.Input.wait_selector b) ∧
  kwargs !! "wait_selector_state" =
    match DynamicFetchRequest.Input.wait_selector_state b with
    | Unset => Some (PyStr "attached")
    | Null => None
    | Value s => if decide (s = "") then None else Some (PyStr s)
    end ∧
  kwargs !! "locale" = text (DynamicFetchRequest.Input.locale b) ∧
  kwargs !! "cdp_url" = text (DynamicFetchRequest.Input.cdp_url b) ∧
  kwargs !! "proxy" = text (DynamicFetchRequest.Input.proxy b) ∧
  kwargs !! "extra_headers" =
    match DynamicFetchRequest.Input.extra_headers b with
    | Value m => if decide (m = ∅) then None else Some (PyDict m)
    | _ => None
    end ∧
  kwargs !! "useragent" = text (DynamicFetchRequest.Input.useragent b).
Proof.
  intros kwargs text. subst kwargs text. unfold _build_dynamic_kwargs. cbv zeta beta.
  destruct b as [u hl dr ni ld t w ws wss lo rc cdp px eh ua gs cs xs].
  repeat split; lookup_kwargs.
  - destruct w; py_values.
  - destruct ws; py_values.
  - destruct wss; py_values.
  - destruct lo; py_values.
  - destruct cdp; py_values.
  - destruct px; py_values.
  - destruct eh; py_values.
  - destruct ua; py_values.
Qed.

(** No mapper puts the url or a selector into the option map: the
    url goes to the engine as its own argument and the selectors are
    kept for the normalizer. *)
Theorem kwargs_never_carry_url_or_selectors (k : string) :
  k = "url" ∨ k = "css_selector" ∨ k = "xpath_selector" →
  (∀ req, _build_fetcher_kwargs req !! k = None) ∧
  (∀ req, _build_data_kwargs req !! k = None) ∧
  (∀ req, _build_dynamic_kwargs req !! k = None) ∧
  (∀ req, _build_stealthy_kwargs req !! k = None).
Proof.
  intros Hcases.
  assert (Hk : k ∈ ({[ "url"; "css_selector"; "xpath_selector" ]} : gset string))
    by set_solver.
  clear Hcases.
  assert (Hf : ∀ req, _build_fetcher_kwargs req !! k = None).
  { intros req. apply not_elem_of_dom. intros Hin.
    apply (fetcher_kwargs_dom req) in Hin. set_solver. }
  assert (Hd : ∀ req, _build_dynamic_kwargs req !! k = None).
  { intros req. apply dynamic_kwargs_not_key. set_solver. }
  split; [exact Hf |]. split; [| split; [exact Hd |]].
  - intros req. unfold _build_data_kwargs. cbv zeta.
    rewrite !lookup_set_if_ne by set_solver. apply Hf.
  - intros req. unfold _build_stealthy_kwargs. cbv zeta.
    rewrite !lookup_insert_ne by set_solver. apply Hd.
Qed.

(** A request with a body that has no form data (none, or an empty
    map) and no JSON payload is mapped like the plain-fetch request it
    extends. *)
Theorem data_kwargs_without_payload (req : FetcherDataRequest.t) :
  FetcherDataRequest.data req = None ∨ FetcherDataRequest.data req = Some ∅ →
  FetcherDataRequest.json_data req = JNull →
  _build_data_kwargs req = _build_fetcher_kwargs (FetcherDataRequest.base req).
Proof.
  intros Hd Hj. unfold _build_data_kwargs. cbv zeta. rewrite Hj.
  by destruct Hd as [-> | ->].
Qed.

(** ** Routes *)

Section Routes.

Context {World : Type}.
Variable engine :
  EngineOp → string → gmap string PyVal → World → result Exception Response.t * World.
Variable decode : list Byte.byte → string.

(** Each fetch route invokes its own engine operation, once, with the
    request's url and the option map of its mapper, whatever the engine
    then answers: GET and DELETE share the plain-fetch options, POST and
    PUT the options with a body. *)
Theorem routes_invoke_their_engine_operation (s : State World) :
  let invokes := λ (rq : Request) (op : EngineOp) (url : string)
      (kwargs : gmap string PyVal),
    ∃ evs, trace (handler engine decode rq s).2 =
             (trace s ++ EngineCall op url kwargs :: evs)%list
      ∧ Forall (λ ev, is_engine_call ev = false) evs in
  (∀ req, invokes (POST_fetcher_get req) Fetcher_get
            (FetcherGetRequest.url req) (_build_fetcher_kwargs req)) ∧
  (∀ req, invokes (POST_fetcher_post req) Fetcher_post
            (FetcherGetRequest.url (FetcherDataRequest.base req))
            (_build_data_kwargs req)) ∧
  (∀ req, invokes (POST_fetcher_put req) Fetcher_put
            (FetcherGetRequest.url (FetcherDataRequest.base req))
            (_build_data_kwargs req)) ∧
  (∀ req, invokes (POST_fetcher_delete req) Fetcher_delete
            (FetcherGetRequest.url req) (_build_fetcher_kwargs req)) ∧
  (∀ req, invokes (POST_dynamic_fetch req) DynamicFetcher_fetch
            (DynamicFetchRequest.url req) (_build_dynamic_kwargs req)) ∧
  (∀ req, invokes (POST_stealthy_fetch req) StealthyFetcher_fetch
            (DynamicFetchRequest.url (StealthyFetchRequest.base req))
            (_build_stealthy_kwargs req)).
Proof.
  intros invokes. subst invokes. cbv beta.
  repeat split; intros req; apply (fetch_with_calls_engine engine decode).
Qed.


(** ** The key check on the routes *)

(** With a key configured, a protected route that is not given
    exactly that key does nothing to the outside, whatever characters
    the header holds, and answers 401, 403 or 500. *)
Theorem no_fetch_without_the_key (environ : gmap string string)
    (x_api_key : option string) (rq : Request) (s : State World) (expected : string) :
  environ !! "SCRAPLING_API_KEY" = Some expected →
  x_api_key ≠ Some expected →
  protected rq = true →
  (create_app engine decode environ x_api_key rq s).2 = s ∧
  http_status (create_app engine decode environ x_api_key rq s).1 ∈ [401; 403; 500].
Proof.
  intros He Hne Hp.
  destruct (_verify_api_key environ x_api_key) as [[] | e] eqn:Ha.
  - exfalso. rewrite verify_api_key_spec, He in Ha.
    destruct x_api_key as [presented |]; [| done].
    destruct (is_ascii presented && is_ascii expected); [| done].
    case_decide; [by subst | done].
  - rewrite (create_app_unauthorized _ _ _ _ _ _ _ Hp Ha). split; [done |].
    rewrite verify_api_key_spec, He in Ha.
    destruct x_api_key as [presented |]; [| simplify_eq; set_solver].
    destruct (is_ascii presented && is_ascii expected);
      [case_decide |]; simplify_eq; set_solver.
Qed.


(** With no key configured the header plays no part: every request
    gets its handler's answer, whatever the header is or holds. *)
Theorem auth_disabled_ignores_header (environ : gmap string string)
    (x_api_key : option string) (rq : Request) (s : State World) :
  environ !! "SCRAPLING_API_KEY" = None →
  create_app engine decode environ x_api_key rq s =
    (respond (handler engine decode rq s).1, (handler engine decode rq s).2).
Proof.
  intros He. apply create_app_authorized. by apply verify_api_key_disabled.
Qed.


End Routes.

(** ** The further properties at concrete inputs *)


Lemma cookie_records_to_name_value_map_witness :
  ScrapeDict.cookies
    (_response_to_dict no_decode browser_response None None initial_state).1 =
    dict_of_items [("sid", "1")].
Proof.
  exact (cookie_records_to_name_value_map no_decode browser_response None None
           initial_state
           [Some ("sid", "1", {["domain" := "example.com"]}); None] eq_refl).
Defined.

Lemma cookie_record_without_value_merged_witness :
  ScrapeDict.cookies
    (_response_to_dict no_decode nameless_cookie_response None None initial_state).1 =
    {["name" := "sid"]} ∪ ∅.
Proof.
  exact (cookie_record_without_value_merged no_decode nameless_cookie_response
           None None initial_state [] {["name" := "sid"]} eq_refl
           (or_intror eq_refl)).
Defined.

Lemma xpath_selected_content_witness :
  ScrapeDict.selected_content
    (_response_to_dict no_decode browser_response (Some "") (Some "//a")
       initial_state).1 = Some ["<a>x</a>"; "x"] ∧
  (_response_to_dict no_decode browser_response (Some "") (Some "//a")
     initial_state).2 = mkState 0%nat [XpathCall "//a"].
Proof.
  exact (xpath_selected_content no_decode browser_response (Some "") "//a"
           initial_state _ (or_intror eq_refl) ltac:(discriminate) eq_refl).
Defined.

Lemma kwargs_never_carry_url_or_selectors_witness :
  _build_fetcher_kwargs plain_request !! "css_selector" = None.
Proof.
  exact (proj1 (kwargs_never_carry_url_or_selectors "css_selector"
                  (or_intror (or_introl eq_refl))) plain_request).
Defined.

Lemma data_kwargs_without_payload_witness :
  _build_data_kwargs empty_data_request = _build_fetcher_kwargs plain_request.
Proof.
  exact (data_kwargs_without_payload empty_data_request (or_intror eq_refl) eq_refl).
Defined.


Lemma no_fetch_without_the_key_witness :
  (create_app page_engine no_decode environ_with_key (Some non_ascii_key)
     (POST_fetcher_get plain_request) initial_state).2 = initial_state ∧
  http_status
    (create_app page_engine no_decode environ_with_key (Some non_ascii_key)
       (POST_fetcher_get plain_request) initial_state).1 ∈ [401; 403; 500].
Proof.
  exact (no_fetch_without_the_key page_engine no_decode environ_with_key
           (Some non_ascii_key) (POST_fetcher_get plain_request) initial_state
           "secret" eq_refl ltac:(discriminate) eq_refl).
Defined.


Lemma auth_disabled_ignores_header_witness :
  create_app page_engine no_decode ∅ (Some non_ascii_key)
    (POST_fetcher_get plain_request) initial_state =
    (respond (handler page_engine no_decode (POST_fetcher_get plain_request)
                initial_state).1,
     (handler page_engine no_decode (POST_fetcher_get plain_request) initial_state).2).
Proof.
  exact (auth_disabled_ignores_header page_engine no_decode ∅ (Some non_ascii_key)
           (POST_fetcher_get plain_request) initial_state eq_refl).
Defined.

